(** * JWT-RBAC template front end: session store, permission table, HTTP client

    A shallow embedding of the three pieces of logic of the front end:

    - [lib/auth-provider.tsx]: the session state store ([AuthProvider]);
    - [lib/usePermissions]: the static role/permission table and its hooks;
    - [lib/api.ts]: the axios response interceptor that coordinates the
      token refresh.

    Definitions come first, the properties afterwards. *)

From Stdlib Require Import List String Bool Arith Lia.
Import ListNotations.
Open Scope string_scope.
Open Scope list_scope.

(* ===================================================================== *)
(** * Shared data: users, response payloads, errors *)
(* ===================================================================== *)

(** [type Role = 'admin' | 'manager' | 'user'] *)
Inductive Role : Type := admin | manager | user.

Definition Role_eqb (a b : Role) : bool :=
match a, b with
| admin, admin | manager, manager | user, user => true
| _, _ => false
end.

(** [interface User] of auth-provider.tsx. *)
Record User : Type := mkUser {
id : string;
email : string;
username : string;
first_name : string;
last_name : string;
role : Role;
is_verified : bool;
is_active : bool;
created_at : string;
updated_at : string
}.

(** [response.data]: the fields the front end reads from a backend answer.
  [data_user] is [None] when the JSON body has no [user] member. *)
Record ResponseData : Type := mkData {
success : bool;
data_user : option User;
access : string
}.

(** [AxiosError]: only [error.response?.status] is inspected; [None] is a
  transport error without a response. *)
Record AxiosError : Type := mkError { status : option nat }.

(** A settled promise of an [api] call. *)
Inductive Settled : Type :=
| Resolved (d : ResponseData)
| Rejected (e : AxiosError).

(* ===================================================================== *)
(** * Session state store (lib/auth-provider.tsx) *)
(* ===================================================================== *)

Module AuthProvider.

(** [interface AuthState] *)
Record AuthState : Type := mkState {
  user : option User;
  isAuthenticated : bool;
  isLoading : bool
}.

(** [interface RegisterData] *)
Record RegisterData : Type := mkRegisterData {
  reg_email : string;
  reg_username : string;
  reg_password : string;
  reg_password_confirm : string;
  reg_first_name : option string;
  reg_last_name : option string
}.

Inductive Body : Type :=
| NoBody
| Credentials (email password : string)
| Registration (data : RegisterData).

Inductive Method : Type := GET | POST.

Record Request : Type := mkRequest {
  method : Method;
  url : string;
  body : Body
}.

(** What the store does to the outside world. *)
Inductive Effect : Type :=
| Call (r : Request)          (* api.get / api.post *)
| Push (path : string).       (* router.push *)

(** How the [api] promise of a request settles, interceptors included.
    Every promise is taken to settle. *)
Definition Backend : Type := Request -> Settled.

(** An async function of the provider: it reads the backend, updates the
    React state, emits effects, and either returns or throws. *)
Inductive Outcome (A : Type) : Type :=
| Return (a : A)
| Throw (e : AxiosError).
Arguments Return {A} a.
Arguments Throw {A} e.

Definition Async (A : Type) : Type :=
  Backend -> AuthState -> Outcome A * AuthState * list Effect.

Definition ret {A} (a : A) : Async A :=
  fun _ st => (Return a, st, []).

Definition bind {A B} (m : Async A) (k : A -> Async B) : Async B :=
  fun be st =>
    match m be st with
    | (Return a, st1, fx1) =>
        let '(o, st2, fx2) := k a be st1 in (o, st2, fx1 ++ fx2)
    | (Throw e, st1, fx1) => (Throw e, st1, fx1)
    end.

(** [try { m } catch (error) { h error }] *)
Definition try_catch {A} (m : Async A) (h : AxiosError -> Async A) : Async A :=
  fun be st =>
    match m be st with
    | (Return a, st1, fx1) => (Return a, st1, fx1)
    | (Throw e, st1, fx1) =>
        let '(o, st2, fx2) := h e be st1 in (o, st2, fx1 ++ fx2)
    end.

Definition setState (s : AuthState) : Async unit :=
  fun _ _ => (Return tt, s, []).

Definition router_push (path : string) : Async unit :=
  fun _ st => (Return tt, st, [Push path]).

(** [await api(...)]: a rejected promise is thrown at the await. *)
Definition await_api (r : Request) : Async ResponseData :=
  fun be st =>
    match be r with
    | Resolved d => (Return d, st, [Call r])
    | Rejected e => (Throw e, st, [Call r])
    end.

Definition api_get (u : string) : Async ResponseData :=
  await_api (mkRequest GET u NoBody).

Definition api_post (u : string) (b : Body) : Async ResponseData :=
  await_api (mkRequest POST u b).

(** A call that is not awaited: the caller does not see how it ends. *)
Definition detached {A} (m : Async A) : Async unit :=
  fun be st => let '(_, st1, fx1) := m be st in (Return tt, st1, fx1).

Declare Scope async_scope.
Delimit Scope async_scope with async.
Notation "x <- m ;; k" := (bind m (fun x => k))
  (at level 61, m at next level, right associativity) : async_scope.
Notation "m ;; k" := (bind m (fun _ => k))
  (at level 61, right associativity) : async_scope.
Local Open Scope async_scope.

(** [useState<AuthState>({...})] *)
Definition initialState : AuthState :=
  {| user := None; isAuthenticated := false; isLoading := true |}.

Definition unauthenticated : AuthState :=
  {| user := None; isAuthenticated := false; isLoading := false |}.

Definition authenticated (u : option User) : AuthState :=
  {| user := u; isAuthenticated := true; isLoading := false |}.

Definition fetchCurrentUser : Async unit :=
  try_catch
    (response <- api_get "/auth/me/" ;;
     setState (authenticated (data_user response)))
    (fun _ => setState unauthenticated).

Definition login (email password : string) : Async unit :=
  response <- api_post "/auth/login/" (Credentials email password) ;;
  if success response then
    setState (authenticated (data_user response)) ;;
    router_push "/dashboard"
  else ret tt.

Definition register (data : RegisterData) : Async unit :=
  response <- api_post "/auth/register/" (Registration data) ;;
  if success response then
    setState (authenticated (data_user response)) ;;
    router_push "/dashboard"
  else ret tt.

Definition logout : Async unit :=
  try_catch
    (api_post "/auth/logout/" NoBody ;; ret tt)
    (fun _ => ret tt) ;;
  setState unauthenticated ;;
  router_push "/login".

Definition refreshToken : Async unit :=
  try_catch
    (api_post "/auth/token/refresh/" NoBody ;; ret tt)
    (fun _ => detached logout).

(** The public operations of the store. *)
Inductive Op : Type :=
| FetchCurrentIdentity
| Login (email password : string)
| Register (data : RegisterData)
| Logout
| RefreshToken.

Definition perform (o : Op) : Async unit :=
  match o with
  | FetchCurrentIdentity => fetchCurrentUser
  | Login e p => login e p
  | Register d => register d
  | Logout => logout
  | RefreshToken => refreshToken
  end.

Definition outcome_of {A} (r : Outcome A * AuthState * list Effect) : Outcome A :=
  fst (fst r).
Definition state_of {A} (r : Outcome A * AuthState * list Effect) : AuthState :=
  snd (fst r).
Definition effects_of {A} (r : Outcome A * AuthState * list Effect) : list Effect :=
  snd r.

(** A session of the store: operations run one after the other, each
    against the backend behaviour of its moment. *)
Fixpoint session (ops : list (Op * Backend)) (st : AuthState) : AuthState :=
  match ops with
  | [] => st
  | (o, be) :: rest => session rest (state_of (perform o be st))
  end.

(** The session invariant of the data model. *)
Definition session_ok (st : AuthState) : Prop :=
  isAuthenticated st = true -> user st <> None.

(** The endpoints whose success answer carries a [user] member. *)
Definition identity_endpoint (u : string) : bool :=
  String.eqb u "/auth/me/" || String.eqb u "/auth/login/"
  || String.eqb u "/auth/register/".

(** The backend keeps its interface: a success answer of an identity
    endpoint has a user object. *)
Definition carries_user (be : Backend) : Prop :=
  forall r d, be r = Resolved d ->
              identity_endpoint (url r) = true -> data_user d <> None.

Definition me_request : Request := mkRequest GET "/auth/me/" NoBody.
Definition login_request (email password : string) : Request :=
  mkRequest POST "/auth/login/" (Credentials email password).
Definition logout_request : Request := mkRequest POST "/auth/logout/" NoBody.

(** Two backends used to exercise the statements below. *)
Definition sample_user : User :=
  mkUser "42" "a@b.com" "ab" "A" "B" manager true true
         "2024-01-01T00:00:00Z" "2024-01-01T00:00:00Z".
Definition accepting : Backend :=
  fun _ => Resolved (mkData true (Some sample_user) "token").
Definition refusing : Backend :=
  fun _ => Rejected (mkError (Some 400)).

End AuthProvider.

(* ===================================================================== *)
(** * Permission table and hooks (lib/usePermissions) *)
(* ===================================================================== *)

Module Permissions.

Definition ROLE_PERMISSIONS (r : Role) : list string :=
  match r with
  | admin =>
      [ "manage_users"; "manage_roles"; "view_dashboard";
        "edit_profile"; "view_profile" ]
  | manager =>
      [ "view_dashboard"; "manage_users"; "edit_profile"; "view_profile" ]
  | user =>
      [ "view_dashboard"; "edit_profile"; "view_profile" ]
  end.

(** [Array.prototype.includes] on strings and on roles. *)
Definition includes (l : list string) (x : string) : bool :=
  existsb (String.eqb x) l.

Definition includes_role (l : list Role) (x : Role) : bool :=
  existsb (Role_eqb x) l.

(** [useHasRole(...roles)], with the value of [useAuth()] made explicit. *)
Definition useHasRole (ctx : AuthProvider.AuthState) (roles : list Role) : bool :=
  match AuthProvider.isAuthenticated ctx, AuthProvider.user ctx with
  | true, Some u => includes_role roles (role u)
  | _, _ => false
  end.

(** [useHasPermission(...permissions)] *)
Definition useHasPermission (ctx : AuthProvider.AuthState)
    (permissions : list string) : bool :=
  match AuthProvider.isAuthenticated ctx, AuthProvider.user ctx with
  | true, Some u =>
      let userPermissions := ROLE_PERMISSIONS (role u) in
      existsb (fun permission => includes userPermissions permission) permissions
  | _, _ => false
  end.

Definition useIsAdmin (ctx : AuthProvider.AuthState) : bool := useHasRole ctx [admin].

Definition useIsManager (ctx : AuthProvider.AuthState) : bool := useHasRole ctx [manager; admin].

(** The hierarchy of the three roles, lowest first. *)
Definition rank (r : Role) : nat :=
  match r with user => 0 | manager => 1 | admin => 2 end.

(** The same user record with another role. *)
Definition with_role (u : User) (r : Role) : User :=
  mkUser (id u) (email u) (username u) (first_name u) (last_name u) r
         (is_verified u) (is_active u) (created_at u) (updated_at u).

End Permissions.

(* ===================================================================== *)
(** * HTTP client wrapper (lib/api.ts) *)
(* ===================================================================== *)

Module Api.

(** Which promise a request belongs to: one handed to a caller of [api],
    or the one of the k-th [api.post('/auth/token/refresh/')] that the
    interceptor itself awaits.  A re-issued request keeps the identity of
    the request it retries, since its result settles the same promise. *)
Inductive ReqId : Type :=
| Caller (n : nat)
| RefreshCall (k : nat).

Definition ReqId_eqb (a b : ReqId) : bool :=
  match a, b with
  | Caller n, Caller m => Nat.eqb n m
  | RefreshCall n, RefreshCall m => Nat.eqb n m
  | _, _ => false
  end.

(** [InternalAxiosRequestConfig & { _retry?: boolean }]: the members the
    interceptor reads or writes. *)
Record Config : Type := mkConfig {
  rid : ReqId;
  url : string;
  _retry : bool;
  Authorization : option string
}.

(** What the wrapper does to the outside world. *)
Inductive Action : Type :=
| Send (c : Config)                       (* api(config): request handed to axios *)
| Redirect (href : string)                (* window.location.href = href *)
| Fulfil (i : ReqId) (d : ResponseData)   (* a caller's promise resolves *)
| Fail (i : ReqId) (e : AxiosError).      (* a caller's promise rejects *)

(** Module state of api.ts.  [isRefreshing] and [refreshSubscribers] are
    the two module variables; a subscriber closure is represented by the
    [originalRequest] it captured.  [awaiting] holds the handlers that
    are suspended at [await api.post(...)], keyed by the number of the
    refresh call they wait for; [issued] counts the refresh calls made
    so far and [trace] records the actions, oldest first. *)
Record State : Type := mkState {
  isRefreshing : bool;
  refreshSubscribers : list Config;
  awaiting : list (nat * Config);
  issued : nat;
  trace : list Action
}.

Definition init : State :=
  {| isRefreshing := false; refreshSubscribers := []; awaiting := [];
     issued := 0; trace := [] |}.

Definition set_isRefreshing (b : bool) (st : State) : State :=
  mkState b (refreshSubscribers st) (awaiting st) (issued st) (trace st).

Definition set_refreshSubscribers (l : list Config) (st : State) : State :=
  mkState (isRefreshing st) l (awaiting st) (issued st) (trace st).

Definition set_awaiting (l : list (nat * Config)) (st : State) : State :=
  mkState (isRefreshing st) (refreshSubscribers st) l (issued st) (trace st).

Definition emit (a : Action) (st : State) : State :=
  mkState (isRefreshing st) (refreshSubscribers st) (awaiting st) (issued st)
          (trace st ++ [a]).

(** [originalRequest._retry = true] *)
Definition mark_retry (c : Config) : Config :=
  mkConfig (rid c) (url c) true (Authorization c).

(** [originalRequest.headers.Authorization = `Bearer ${token}`] *)
Definition bearer (token : string) (c : Config) : Config :=
  mkConfig (rid c) (url c) (_retry c) (Some ("Bearer " ++ token)%string).

(** [api(config)] *)
Definition api (c : Config) (st : State) : State := emit (Send c) st.

(** [refreshSubscribers.push(cb)] *)
Definition subscribeTokenRefresh (cb : Config) (st : State) : State :=
  set_refreshSubscribers (refreshSubscribers st ++ [cb]) st.

(** The closure of lines 50-53 applied to [token]. *)
Definition call_subscriber (token : string) (st : State) (cb : Config) : State :=
  api (bearer token cb) st.

(** [refreshSubscribers.forEach((cb) => cb(token)); refreshSubscribers = []] *)
Definition onTokenRefreshed (token : string) (st : State) : State :=
  set_refreshSubscribers []
    (fold_left (call_subscriber token) (refreshSubscribers st) st).

(** The config of the k-th [api.post('/auth/token/refresh/')]. *)
Definition refreshRequest (k : nat) : Config :=
  {| rid := RefreshCall k; url := "/auth/token/refresh/";
     _retry := false; Authorization := None |}.

(** Lines 57-62: mark, raise the flag, post the refresh and suspend. *)
Definition start_refresh (originalRequest : Config) (st : State) : State :=
  let originalRequest := mark_retry originalRequest in
  let k := issued st in
  api (refreshRequest k)
      (mkState true (refreshSubscribers st)
               (awaiting st ++ [(k, originalRequest)]) (S k) (trace st)).

(** Lines 63-69: the try block once the awaited refresh has resolved. *)
Definition refresh_succeeded (originalRequest : Config) (response : ResponseData)
    (st : State) : State :=
  let access := access response in
  let st := set_isRefreshing false st in
  let st := onTokenRefreshed access st in
  api (bearer access originalRequest) st.

(** Lines 71-75 of the catch block; line 76 rejects the promise of
    [originalRequest], see [reject]. *)
Definition refresh_failed (window : bool) (st : State) : State :=
  let st := set_isRefreshing false st in
  if window then emit (Redirect "/login") st else st.

(** The handler suspended on refresh call [k], and the others. *)
Fixpoint take (k : nat) (l : list (nat * Config))
  : option (Config * list (nat * Config)) :=
  match l with
  | [] => None
  | (k', c) :: rest =>
      if Nat.eqb k k' then Some (c, rest)
      else match take k rest with
           | Some (c0, rest') => Some (c0, (k', c) :: rest')
           | None => None
           end
  end.

(** The promise of request [i] resolves with [d]: a suspended handler
    resumes in its try block, a caller gets the response. *)
Definition fulfil (i : ReqId) (d : ResponseData) (st : State) : State :=
  match i with
  | RefreshCall k =>
      match take k (awaiting st) with
      | Some (originalRequest, rest) =>
          refresh_succeeded originalRequest d (set_awaiting rest st)
      | None => emit (Fulfil i d) st
      end
  | Caller _ => emit (Fulfil i d) st
  end.

(** The promise of request [i] rejects with [e]: a suspended handler
    resumes in its catch block and rejects the promise of its own
    original request in turn.  [fuel] bounds the length of that chain;
    every link removes one entry of [awaiting]. *)
Fixpoint reject (fuel : nat) (window : bool) (i : ReqId) (e : AxiosError)
    (st : State) : State :=
  match i, fuel with
  | RefreshCall k, S fuel' =>
      match take k (awaiting st) with
      | Some (originalRequest, rest) =>
          reject fuel' window (rid originalRequest) e
                 (refresh_failed window (set_awaiting rest st))
      | None => emit (Fail i e) st
      end
  | _, _ => emit (Fail i e) st
  end.

(** [error.response?.status === 401] *)
Definition is_401 (e : AxiosError) : bool :=
  match status e with
  | Some s => Nat.eqb s 401
  | None => false
  end.

(** The rejection handler of [api.interceptors.response.use], run on
    the error of the request with config [originalRequest]. *)
Definition onRejected (window : bool) (originalRequest : Config) (error : AxiosError)
    (st : State) : State :=
  if is_401 error && negb (_retry originalRequest) then
    if isRefreshing st then
      subscribeTokenRefresh originalRequest st
    else
      start_refresh originalRequest st
  else
    reject (List.length (awaiting st)) window (rid originalRequest) error st.

(** The fulfilment handler [(response) => response]. *)
Definition onFulfilled (c : Config) (d : ResponseData) (st : State) : State :=
  fulfil (rid c) d st.

(** An event of the event loop: axios delivers the outcome of the
    request that was sent with config [c]. *)
Inductive Event : Type :=
| Response (c : Config) (r : Settled).

Definition step (window : bool) (st : State) (ev : Event) : State :=
  match ev with
  | Response c (Resolved d) => onFulfilled c d st
  | Response c (Rejected e) => onRejected window c e st
  end.

Definition run (window : bool) (st : State) (evs : list Event) : State :=
  fold_left (step window) evs st.

(** A request answered with status 401. *)
Definition unauthorized (c : Config) : Event :=
  Response c (Rejected (mkError (Some 401))).

(** Refresh calls whose awaiting handler has not resumed yet. *)
Definition in_flight (st : State) : nat := List.length (awaiting st).

(** No refresh cycle is open. *)
Definition idle (st : State) : Prop :=
  isRefreshing st = false /\ refreshSubscribers st = [] /\ awaiting st = [].

(** How often the request of promise [i] was handed to axios by the
    wrapper. *)
Definition is_send_of (i : ReqId) (a : Action) : bool :=
  match a with
  | Send c => ReqId_eqb (rid c) i
  | _ => false
  end.

Definition resends (i : ReqId) (st : State) : nat :=
  List.length (filter (is_send_of i) (trace st)).

(** The invariant behind the single refresh: the flag is up exactly
    while one handler is suspended. *)
Definition coherent (st : State) : Prop :=
  List.length (awaiting st) <= 1 /\ (isRefreshing st = false -> awaiting st = []).

(** Requests and answers used to exercise the interceptor. *)
Definition request_a : Config := mkConfig (Caller 1) "/users/" false None.
Definition request_b : Config := mkConfig (Caller 2) "/roles/" false None.
Definition request_c : Config := mkConfig (Caller 3) "/profile/" false None.

Definition token_answer (token : string) : ResponseData := mkData false None token.

Definition refreshed (k : nat) (token : string) : Event :=
  Response (refreshRequest k) (Resolved (token_answer token)).

Definition server_error : AxiosError := mkError (Some 500).

(** One refresh cycle in which [request_b], already carrying the token of
    an earlier cycle, is answered 401 while the refresh started by a
    fresh request is in flight. *)
Definition round (k : nat) : list Event :=
  [ unauthorized (mkConfig (Caller (10 + k)) "/users/" false None);
    unauthorized (bearer "t" request_b);
    refreshed k "t" ].

Fixpoint rounds (n : nat) : list Event :=
  match n with
  | 0 => []
  | S m => rounds m ++ round m
  end.

End Api.

(* ===================================================================== *)
(** * Role-gated views (withRole of lib/usePermissions, app/dashboard/page.tsx) *)
(* ===================================================================== *)

Module Views.

(** Navigation a view performs. *)
Inductive ViewEffect : Type :=
| SetLocation (href : string)    (* window.location.href = href *)
| RouterPush (path : string).    (* router.push(path) *)

(** What [WithRoleComponent] returns. *)
Inductive Guarded : Type :=
| LoadingIndicator
| RenderNothing
| AccessDenied
| WrappedComponent.

(** [allowedRoles.includes(user?.role as Role)]: an absent user has the
    role [undefined], which no list of roles includes. *)
Definition includes_optional_role (allowedRoles : list Role) (u : option User) : bool :=
  match u with
  | Some usr => Permissions.includes_role allowedRoles (role usr)
  | None => false
  end.

(** [withRole(WrappedComponent, allowedRoles)] rendered with the value
    [ctx] of [useAuth()]; [window] is [typeof window !== 'undefined']. *)
Definition withRole (window : bool) (allowedRoles : list Role)
    (ctx : AuthProvider.AuthState) : Guarded * list ViewEffect :=
  if AuthProvider.isLoading ctx then (LoadingIndicator, [])
  else if negb (AuthProvider.isAuthenticated ctx) then
    (RenderNothing, if window then [SetLocation "/login"] else [])
  else if negb (includes_optional_role allowedRoles (AuthProvider.user ctx)) then
    (AccessDenied, [])
  else (WrappedComponent, []).

(** [a || b] on strings: the empty string is falsy. *)
Definition or_else (a b : string) : string :=
  if String.eqb a "" then b else a.

(** [process.env.NEXT_PUBLIC_API_URL || 'http://localhost:8000'] *)
Definition API_URL (env : option string) : string :=
  match env with
  | Some v => or_else v "http://localhost:8000"
  | None => "http://localhost:8000"
  end.

(** [baseURL] of the axios instance of api.ts. *)
Definition baseURL (env : option string) : string :=
  (API_URL env ++ "/api")%string.

(** The text a role is printed as. *)
Definition role_text (r : Role) : string :=
  match r with
  | admin => "admin"
  | manager => "manager"
  | user => "user"
  end.

(** The parts of the dashboard that depend on the session. *)
Record Dashboard : Type := mkDashboard {
  header_text : string;        (* {user.email} ({user.role}) *)
  welcome_name : string;       (* Welcome, {...}! *)
  role_label : string;         (* Your role: {user.role} *)
  user_management : bool;      (* the User Management card *)
  admin_panel : bool;          (* the Admin Panel card *)
  docs_href : string           (* the API documentation link *)
}.

Inductive Page : Type :=
| PageLoading
| PageNothing
| PageDashboard (d : Dashboard).

(** The effect of [useEffect] in [DashboardPage]. *)
Definition dashboard_effect (ctx : AuthProvider.AuthState) : list ViewEffect :=
  if negb (AuthProvider.isLoading ctx) && negb (AuthProvider.isAuthenticated ctx)
  then [RouterPush "/login"] else [].

(** [DashboardPage] rendered with the value [ctx] of [useAuth()]. *)
Definition DashboardPage (env : option string) (ctx : AuthProvider.AuthState)
  : Page * list ViewEffect :=
  let isAdmin := Permissions.useIsAdmin ctx in
  let isManager := Permissions.useIsManager ctx in
  (if AuthProvider.isLoading ctx then PageLoading
   else match AuthProvider.user ctx with
        | None => PageNothing
        | Some usr =>
            PageDashboard
              {| header_text := (email usr ++ " (" ++ role_text (role usr) ++ ")")%string;
                 welcome_name := or_else (first_name usr) (or_else (username usr) (email usr));
                 role_label := role_text (role usr);
                 user_management := isAdmin || isManager;
                 admin_panel := isAdmin;
                 docs_href := (API_URL env ++ "/api/docs/")%string |}
        end,
   dashboard_effect ctx).

End Views.

(* ===================================================================== *)
(** * Observations on runs of the HTTP client wrapper *)
(* ===================================================================== *)

Module ApiObservations.
Import Api.

(** How an answer reaches the caller when the interceptor lets it pass. *)
Definition delivered (ev : Event) : Action :=
  match ev with
  | Response c (Resolved d) => Fulfil (rid c) d
  | Response c (Rejected e) => Fail (rid c) e
  end.

(** Answers to a caller's request that do not enter the branch of line 46:
    every success, and every error that is not a 401 on an unmarked
    request. *)
Definition passes_through (ev : Event) : bool :=
  match ev with
  | Response c r =>
      match rid c with
      | Caller _ =>
          match r with
          | Resolved _ => true
          | Rejected e => negb (is_401 e && negb (_retry c))
          end
      | RefreshCall _ => false
      end
  end.

(** The flag is up exactly while a handler is suspended; the requests in
    the queue are unmarked and the request of a suspended handler is
    marked. *)
Definition well_marked (st : State) : Prop :=
  (isRefreshing st = true <-> awaiting st <> []) /\
  Forall (fun c => _retry c = false) (refreshSubscribers st) /\
  Forall (fun p => _retry (snd p) = true) (awaiting st).

(** A request the wrapper hands to axios is one of its first [n] refresh
    calls or carries a bearer token. *)
Definition sent_ok (n : nat) (a : Action) : Prop :=
  match a with
  | Send c =>
      (exists k, k < n /\ c = refreshRequest k) \/
      (exists token, Authorization c = Some ("Bearer " ++ token)%string)
  | _ => True
  end.

End ApiObservations.

(* ===================================================================== *)
(** * Properties of the permission table *)
(* ===================================================================== *)

Module PermissionsSpec.
Import Permissions.

Lemma includes_In (l : list string) (x : string) :
  includes l x = true <-> In x l.
Proof.
  unfold includes. rewrite existsb_exists. split.
  - intros [y [Hy Heq]]. apply String.eqb_eq in Heq. now subst.
  - intros H. exists x. split; [assumption | apply String.eqb_refl].
Qed.

Lemma table_monotone (lo hi : Role) :
  rank lo <= rank hi -> incl (ROLE_PERMISSIONS lo) (ROLE_PERMISSIONS hi).
Proof.
  intros Hrank p Hp.
  destruct lo, hi; simpl in Hrank; try lia; simpl in *; intuition.
Qed.

Lemma some_permission_monotone (small large perms : list string) :
  incl small large ->
  existsb (fun p => includes small p) perms = true ->
  existsb (fun p => includes large p) perms = true.
Proof.
  intros Hincl H. apply existsb_exists in H. destruct H as [p [Hin Hp]].
  apply existsb_exists. exists p. split; [assumption |].
  apply includes_In. apply Hincl. now apply includes_In.
Qed.

(** C8: whatever roles or permissions are asked for, [useHasRole] and
    [useHasPermission] answer false when the session is not
    authenticated or holds no user. *)
Theorem hooks_false_without_session
    (ctx : AuthProvider.AuthState) (roles : list Role) (permissions : list string)
    (Hout : AuthProvider.isAuthenticated ctx = false \/ AuthProvider.user ctx = None) :
  useHasRole ctx roles = false /\ useHasPermission ctx permissions = false.
Proof.
  unfold useHasRole, useHasPermission.
  destruct Hout as [H | H]; rewrite H.
  - split; reflexivity.
  - destruct (AuthProvider.isAuthenticated ctx); split; reflexivity.
Qed.

Lemma hooks_false_without_session_witness :
  useHasRole AuthProvider.initialState [admin; manager; user] = false /\
  useHasPermission AuthProvider.initialState ["view_dashboard"] = false.
Proof.
  apply (hooks_false_without_session AuthProvider.initialState).
  left. reflexivity.
Defined.

(** C9: the permission list of every role contains 'view_dashboard', so
    [useHasPermission('view_dashboard')] is true for an authenticated
    user of any role. *)
Theorem every_role_views_dashboard
    (ctx : AuthProvider.AuthState) (u : User)
    (Hauth : AuthProvider.isAuthenticated ctx = true)
    (Huser : AuthProvider.user ctx = Some u) :
  In "view_dashboard" (ROLE_PERMISSIONS (role u)) /\
  useHasPermission ctx ["view_dashboard"] = true.
Proof.
  unfold useHasPermission. rewrite Hauth, Huser.
  destruct (role u); simpl; intuition.
Qed.

Lemma every_role_views_dashboard_witness :
  In "view_dashboard" (ROLE_PERMISSIONS user) /\
  useHasPermission
    (AuthProvider.authenticated
       (Some (mkUser "7" "u@example.org" "u" "" "" user true true "" "")))
    ["view_dashboard"] = true.
Proof.
  apply (every_role_views_dashboard
           (AuthProvider.authenticated
              (Some (mkUser "7" "u@example.org" "u" "" "" user true true "" "")))
           (mkUser "7" "u@example.org" "u" "" "" user true true "" ""));
    reflexivity.
Defined.

(** C10: the table is a hierarchy, user below manager below admin: a
    lower role's permissions are among those of a higher role, and a
    permission check that succeeds for the lower role succeeds for the
    higher one. *)
Theorem role_hierarchy_monotone
    (lo hi : Role) (Hrank : rank lo <= rank hi) :
  incl (ROLE_PERMISSIONS user) (ROLE_PERMISSIONS manager) /\
  incl (ROLE_PERMISSIONS manager) (ROLE_PERMISSIONS admin) /\
  incl (ROLE_PERMISSIONS lo) (ROLE_PERMISSIONS hi) /\
  forall (u : User) (loading : bool) (permissions : list string),
    useHasPermission
      (AuthProvider.mkState (Some (with_role u lo)) true loading) permissions = true ->
    useHasPermission
      (AuthProvider.mkState (Some (with_role u hi)) true loading) permissions = true.
Proof.
  repeat split.
  - apply table_monotone. simpl. lia.
  - apply table_monotone. simpl. lia.
  - now apply table_monotone.
  - intros u loading permissions. unfold useHasPermission. simpl.
    apply some_permission_monotone. now apply table_monotone.
Qed.

Lemma role_hierarchy_monotone_witness :
  incl (ROLE_PERMISSIONS user) (ROLE_PERMISSIONS manager) /\
  incl (ROLE_PERMISSIONS manager) (ROLE_PERMISSIONS admin) /\
  incl (ROLE_PERMISSIONS manager) (ROLE_PERMISSIONS admin) /\
  forall (u : User) (loading : bool) (permissions : list string),
    useHasPermission
      (AuthProvider.mkState (Some (with_role u manager)) true loading)
      permissions = true ->
    useHasPermission
      (AuthProvider.mkState (Some (with_role u admin)) true loading)
      permissions = true.
Proof.
  apply (role_hierarchy_monotone manager admin). simpl. lia.
Defined.

End PermissionsSpec.

(* ===================================================================== *)
(** * Properties of the session state store *)
(* ===================================================================== *)

Module AuthProviderSpec.
Import AuthProvider.

Ltac run_async :=
  unfold perform, refreshToken, fetchCurrentUser, login, register, logout,
    detached, try_catch, bind, api_get, api_post, await_api, setState,
    router_push, ret, state_of, outcome_of, effects_of.

Lemma session_ok_unauthenticated : session_ok unauthenticated.
Proof. unfold session_ok, unauthenticated. simpl. discriminate. Qed.

Lemma session_ok_authenticated (u : option User) :
  u <> None -> session_ok (authenticated u).
Proof. intros H _. exact H. Qed.

Lemma perform_preserves (o : Op) (be : Backend) (st : AuthState) :
  carries_user be -> session_ok st -> session_ok (state_of (perform o be st)).
Proof.
  intros Hbe Hst.
  destruct o as [| em pw | data | |]; run_async.
  - destruct (be (mkRequest GET "/auth/me/" NoBody)) eqn:E; simpl.
    + apply session_ok_authenticated. apply (Hbe _ _ E). reflexivity.
    + apply session_ok_unauthenticated.
  - destruct (be (mkRequest POST "/auth/login/" (Credentials em pw))) eqn:E;
      simpl; [| exact Hst].
    destruct (success d) eqn:Es; simpl; [| exact Hst].
    apply session_ok_authenticated. apply (Hbe _ _ E). reflexivity.
  - destruct (be (mkRequest POST "/auth/register/" (Registration data))) eqn:E;
      simpl; [| exact Hst].
    destruct (success d) eqn:Es; simpl; [| exact Hst].
    apply session_ok_authenticated. apply (Hbe _ _ E). reflexivity.
  - destruct (be (mkRequest POST "/auth/logout/" NoBody)); simpl;
      apply session_ok_unauthenticated.
  - destruct (be (mkRequest POST "/auth/token/refresh/" NoBody)); simpl;
      [exact Hst |].
    destruct (be (mkRequest POST "/auth/logout/" NoBody)); simpl;
      apply session_ok_unauthenticated.
Qed.

Lemma session_preserves (ops : list (Op * Backend)) :
  forall st,
    Forall (fun ob => carries_user (snd ob)) ops ->
    session_ok st -> session_ok (session ops st).
Proof.
  induction ops as [| [o be] rest IH]; intros st Hall Hst; simpl.
  - exact Hst.
  - inversion Hall as [| x l Hhead Htail]; subst. simpl in Hhead.
    apply IH; [exact Htail |]. now apply perform_preserves.
Qed.

Lemma accepting_carries_user : carries_user accepting.
Proof. intros r d H _. unfold accepting in H. inversion H. discriminate. Qed.

Lemma refusing_carries_user : carries_user refusing.
Proof. intros r d H. unfold refusing in H. discriminate. Qed.

(** C4: an authenticated session has a user.  This holds in the initial
    state, every public operation (fetchCurrentIdentity, login,
    register, logout, refreshToken) preserves it, and so does every
    sequence of them, as long as the success answers of the backend
    carry a user object. *)
Theorem authenticated_implies_user
    (o : Op) (be : Backend) (st : AuthState)
    (Hbe : carries_user be) (Hst : session_ok st) :
  session_ok initialState /\
  session_ok (state_of (perform o be st)) /\
  forall ops : list (Op * Backend),
    Forall (fun ob => carries_user (snd ob)) ops ->
    session_ok (session ops initialState).
Proof.
  assert (H0 : session_ok initialState)
    by (unfold session_ok, initialState; simpl; discriminate).
  split; [exact H0 |]. split.
  - now apply perform_preserves.
  - intros ops Hall. now apply session_preserves.
Qed.

Lemma authenticated_implies_user_witness :
  session_ok initialState /\
  session_ok (state_of (perform (Login "a@b.com" "x") accepting initialState)) /\
  forall ops : list (Op * Backend),
    Forall (fun ob => carries_user (snd ob)) ops ->
    session_ok (session ops initialState).
Proof.
  apply (authenticated_implies_user (Login "a@b.com" "x") accepting initialState).
  - intros r d H _. unfold accepting in H. inversion H. discriminate.
  - unfold session_ok, initialState. simpl. discriminate.
Defined.

(** C5: [login].  When the answer carries the success signal the store
    becomes authenticated with the user of the answer and the router is
    sent to the dashboard; when the call fails the error is thrown to
    the caller and the state is the one before the call. *)
Theorem login_contract
    (email password : string) (be : Backend) (st : AuthState) :
  (forall d : ResponseData,
      be (login_request email password) = Resolved d ->
      success d = true ->
      login email password be st =
        (Return tt,
         {| user := data_user d; isAuthenticated := true; isLoading := false |},
         [Call (login_request email password); Push "/dashboard"])) /\
  (forall e : AxiosError,
      be (login_request email password) = Rejected e ->
      login email password be st =
        (Throw e, st, [Call (login_request email password)])).
Proof.
  unfold login_request. split.
  - intros d Hd Hs. run_async. rewrite Hd, Hs. reflexivity.
  - intros e He. run_async. rewrite He. reflexivity.
Qed.

Lemma login_contract_witness :
  login "a@b.com" "x" accepting initialState =
    (Return tt,
     {| user := Some sample_user; isAuthenticated := true; isLoading := false |},
     [Call (login_request "a@b.com" "x"); Push "/dashboard"]) /\
  login "a@b.com" "x" refusing initialState =
    (Throw (mkError (Some 400)), initialState,
     [Call (login_request "a@b.com" "x")]).
Proof.
  split.
  - apply (proj1 (login_contract "a@b.com" "x" accepting initialState)
                 (mkData true (Some sample_user) "token")); reflexivity.
  - apply (proj2 (login_contract "a@b.com" "x" refusing initialState)
                 (mkError (Some 400))); reflexivity.
Defined.

(** C6: [logout] always returns normally, whether the backend call
    resolves or rejects; afterwards the state is
    [{user: null, isAuthenticated: false, isLoading: false}] and the
    router has been sent to the login screen. *)
Theorem logout_resets (be : Backend) (st : AuthState) :
  logout be st =
    (Return tt,
     {| user := None; isAuthenticated := false; isLoading := false |},
     [Call logout_request; Push "/login"]).
Proof.
  run_async. unfold logout_request.
  destruct (be (mkRequest POST "/auth/logout/" NoBody)); reflexivity.
Qed.

(** C7: [fetchCurrentUser] never throws.  A failed identity fetch leaves
    [{user: null, isAuthenticated: false, isLoading: false}], a
    successful one [{user: <returned user>, isAuthenticated: true,
    isLoading: false}]. *)
Theorem fetchCurrentUser_absorbs (be : Backend) (st : AuthState) :
  outcome_of (fetchCurrentUser be st) = Return tt /\
  state_of (fetchCurrentUser be st) =
    match be me_request with
    | Resolved d =>
        {| user := data_user d; isAuthenticated := true; isLoading := false |}
    | Rejected _ =>
        {| user := None; isAuthenticated := false; isLoading := false |}
    end.
Proof.
  run_async. unfold me_request.
  destruct (be (mkRequest GET "/auth/me/" NoBody)); split; reflexivity.
Qed.

End AuthProviderSpec.

(* ===================================================================== *)
(** * Properties of the HTTP client wrapper *)
(* ===================================================================== *)

Module ApiSpec.
Import Api.

(** ** The subscriber queue *)

Lemma fold_call_subscriber (token : string) (subs : list Config) :
  forall st,
    fold_left (call_subscriber token) subs st =
    mkState (isRefreshing st) (refreshSubscribers st) (awaiting st) (issued st)
            (trace st ++ map (fun cb => Send (bearer token cb)) subs).
Proof.
  induction subs as [| cb rest IH]; intros st; simpl.
  - rewrite app_nil_r. now destruct st.
  - rewrite IH. unfold call_subscriber, api, emit. simpl.
    now rewrite <- app_assoc.
Qed.

Lemma onTokenRefreshed_spec (token : string) (st : State) :
  onTokenRefreshed token st =
  mkState (isRefreshing st) [] (awaiting st) (issued st)
          (trace st ++ map (fun cb => Send (bearer token cb)) (refreshSubscribers st)).
Proof.
  unfold onTokenRefreshed. rewrite fold_call_subscriber. reflexivity.
Qed.

Lemma take_here (k : nat) (c : Config) (rest : list (nat * Config)) :
  take k ((k, c) :: rest) = Some (c, rest).
Proof. simpl. now rewrite Nat.eqb_refl. Qed.

Lemma run_app (window : bool) (evs1 evs2 : list Event) (st : State) :
  run window st (evs1 ++ evs2) = run window (run window st evs1) evs2.
Proof. unfold run. apply fold_left_app. Qed.

(** While the flag is up, every 401 on a request not yet marked is queued
    and nothing else happens. *)
Lemma run_queues (window : bool) (cs : list Config) :
  forall st,
    isRefreshing st = true ->
    Forall (fun x => _retry x = false) cs ->
    run window st (map unauthorized cs) =
    set_refreshSubscribers (refreshSubscribers st ++ cs) st.
Proof.
  induction cs as [| c rest IH]; intros st Hflag Hall; simpl.
  - rewrite app_nil_r. now destruct st.
  - inversion Hall as [| x l Hc Hrest]; subst.
    unfold onRejected. simpl. rewrite Hc, Hflag. simpl.
    fold (run window (subscribeTokenRefresh c st) (map unauthorized rest)).
    rewrite IH; [| exact Hflag | exact Hrest].
    unfold subscribeTokenRefresh, set_refreshSubscribers. simpl.
    now rewrite <- app_assoc.
Qed.

(** ** The chain of rejected promises *)

Lemma take_length (k : nat) (l : list (nat * Config)) :
  forall c rest, take k l = Some (c, rest) -> List.length l = S (List.length rest).
Proof.
  induction l as [| [k' c'] l' IH]; intros c rest H; simpl in H.
  - discriminate.
  - destruct (Nat.eqb k k').
    + inversion H; subst. reflexivity.
    + destruct (take k l') as [[c0 rest'] |]; [| discriminate].
      inversion H; subst. simpl. f_equal. now apply (IH c).
Qed.

Lemma awaiting_refresh_failed (window : bool) (rest : list (nat * Config)) (st : State) :
  awaiting (refresh_failed window (set_awaiting rest st)) = rest.
Proof. unfold refresh_failed. destruct window; reflexivity. Qed.

(** The fuel [onRejected] passes to [reject] is enough: more of it does
    not change the result. *)
Lemma reject_fuel_enough (window : bool) (e : AxiosError) (fuel : nat) :
  forall (i : ReqId) (st : State),
    List.length (awaiting st) <= fuel ->
    reject fuel window i e st = reject (List.length (awaiting st)) window i e st.
Proof.
  induction fuel as [| fuel' IH]; intros i st Hlen.
  - assert (H0 : List.length (awaiting st) = 0) by lia. now rewrite H0.
  - destruct i as [m | k].
    + destruct (List.length (awaiting st)); reflexivity.
    + cbn [reject].
      destruct (take k (awaiting st)) as [[orig rest] |] eqn:Htake.
      * pose proof (take_length _ _ _ _ Htake) as Hl. rewrite Hl.
        cbn [reject]. rewrite Htake.
        rewrite IH by (rewrite awaiting_refresh_failed; lia).
        now rewrite awaiting_refresh_failed.
      * destruct (List.length (awaiting st)); cbn [reject];
          [| rewrite Htake]; reflexivity.
Qed.

(** ** One refresh at a time *)

Lemma refresh_succeeded_spec (originalRequest : Config) (d : ResponseData) (st : State) :
  refresh_succeeded originalRequest d st =
  mkState false [] (awaiting st) (issued st)
          (trace st
             ++ map (fun cb => Send (bearer (access d) cb)) (refreshSubscribers st)
             ++ [Send (bearer (access d) originalRequest)]).
Proof.
  unfold refresh_succeeded. rewrite onTokenRefreshed_spec.
  unfold api, emit. simpl. now rewrite <- app_assoc.
Qed.

Lemma fulfil_coherent (i : ReqId) (d : ResponseData) (st : State) :
  coherent st -> coherent (fulfil i d st).
Proof.
  unfold coherent, fulfil. intros [Hlen Hflag].
  destruct i as [m | k]; [exact (conj Hlen Hflag) |].
  destruct (take k (awaiting st)) as [[orig rest] |] eqn:Htake;
    [| exact (conj Hlen Hflag)].
  rewrite refresh_succeeded_spec. simpl.
  destruct (awaiting st) as [| [k' c'] [| p aw']]; simpl in *; try lia;
    [discriminate |].
  destruct (Nat.eqb k k'); inversion Htake; subst. simpl.
  split; [lia | reflexivity].
Qed.

Lemma reject_coherent (window : bool) (i : ReqId) (e : AxiosError) (st : State) :
  coherent st -> coherent (reject (List.length (awaiting st)) window i e st).
Proof.
  unfold coherent. intros [Hlen Hflag].
  destruct st as [flag subs aw n tr]. simpl in *.
  destruct aw as [| [k' c'] [| p aw']]; simpl in *; try lia.
  - destruct i; simpl; split; assumption.
  - destruct i as [m | k]; simpl; [split; assumption |].
    destruct (Nat.eqb k k'); simpl; [| split; assumption].
    unfold refresh_failed. simpl.
    destruct window; simpl; destruct (rid c'); simpl;
      split; try lia; reflexivity.
Qed.

Lemma step_coherent (window : bool) (st : State) (ev : Event) :
  coherent st -> coherent (step window st ev).
Proof.
  intros Hst. destruct ev as [c [d | e]]; unfold step.
  - now apply fulfil_coherent.
  - unfold onRejected.
    destruct (is_401 e && negb (_retry c)).
    + destruct Hst as [Hlen Hflag]. unfold coherent.
      destruct (isRefreshing st) eqn:Eflag.
      * unfold subscribeTokenRefresh. simpl. rewrite Eflag.
        split; [exact Hlen | discriminate].
      * unfold start_refresh. simpl. rewrite (Hflag eq_refl). simpl.
        split; [lia | discriminate].
    + now apply reject_coherent.
Qed.

Lemma run_coherent (window : bool) (evs : list Event) :
  forall st, coherent st -> coherent (run window st evs).
Proof.
  induction evs as [| ev rest IH]; intros st Hst; simpl.
  - exact Hst.
  - apply IH. now apply step_coherent.
Qed.

Lemma init_coherent : coherent init.
Proof. unfold coherent, init. simpl. split; [lia | reflexivity]. Qed.

(** C1: N requests are answered 401 while no refresh cycle is open and
    before the refresh resolves.  The wrapper posts exactly one refresh
    call, to '/auth/token/refresh/'; when it resolves, the queued requests
    are sent again in the order they were queued, then the request that
    started the refresh, each one the request it was with its
    Authorization header set to 'Bearer ' followed by the [access] member
    of the refresh answer, and no further refresh call is made.  In every
    reachable state at most one refresh call is in flight. *)
Theorem concurrent_401_single_refresh
    (window : bool) (st : State) (c : Config) (cs : list Config) (d : ResponseData)
    (Hidle : idle st)
    (Hc : _retry c = false)
    (Hcs : Forall (fun x => _retry x = false) cs) :
  let st1 := run window st (map unauthorized (c :: cs)) in
  let rq := refreshRequest (issued st) in
  let st2 := step window st1 (Response rq (Resolved d)) in
  (rq = {| rid := RefreshCall (issued st); url := "/auth/token/refresh/";
           _retry := false; Authorization := None |} /\
   trace st1 = trace st ++ [Send rq] /\
   issued st1 = S (issued st) /\
   in_flight st1 = 1) /\
  (trace st2 =
     trace st1
       ++ map (fun x =>
                 Send {| rid := rid x; url := url x; _retry := _retry x;
                         Authorization := Some ("Bearer " ++ access d)%string |})
              cs
       ++ [Send {| rid := rid c; url := url c; _retry := true;
                   Authorization := Some ("Bearer " ++ access d)%string |}] /\
   Forall (fun a => exists x,
                      a = Send x /\
                      Authorization x = Some ("Bearer " ++ access d)%string)
          (skipn (List.length (trace st1)) (trace st2)) /\
   issued st2 = issued st1 /\
   idle st2) /\
  (forall evs : list Event, in_flight (run window init evs) <= 1).
Proof.
  destruct Hidle as [Hflag [Hsubs Haw]].
  cbv zeta.
  assert (Hrun : run window st (map unauthorized (c :: cs)) =
                 mkState true cs [(issued st, mark_retry c)] (S (issued st))
                         (trace st ++ [Send (refreshRequest (issued st))])).
  { simpl. unfold onRejected. simpl. rewrite Hc, Hflag. simpl.
    fold (run window (start_refresh c st) (map unauthorized cs)).
    rewrite run_queues; [| reflexivity | exact Hcs].
    unfold start_refresh, api, emit, set_refreshSubscribers. simpl.
    now rewrite Hsubs, Haw. }
  rewrite Hrun.
  split; [simpl; repeat split |]. split.
  - unfold step, onFulfilled, fulfil.
    cbn [rid refreshRequest awaiting]. rewrite take_here.
    rewrite refresh_succeeded_spec. unfold idle.
    cbn [trace isRefreshing refreshSubscribers awaiting issued set_awaiting].
    split; [reflexivity |]. split; [| repeat split].
    rewrite skipn_app, skipn_all, Nat.sub_diag. cbn [app skipn].
    apply Forall_app. split.
    + apply Forall_forall. intros a Ha. apply in_map_iff in Ha.
      destruct Ha as [x [Ha _]]. subst a. eexists. split; reflexivity.
    + constructor; [| constructor]. eexists. split; reflexivity.
  - intros evs. apply (run_coherent window evs init init_coherent).
Qed.

Lemma concurrent_401_single_refresh_witness :
  let st1 := run true init (map unauthorized [request_a; request_b; request_c]) in
  let rq := refreshRequest 0 in
  let st2 := step true st1 (Response rq (Resolved (token_answer "t"))) in
  (rq = {| rid := RefreshCall 0; url := "/auth/token/refresh/";
           _retry := false; Authorization := None |} /\
   trace st1 = [Send rq] /\ issued st1 = 1 /\ in_flight st1 = 1) /\
  (trace st2 =
     trace st1
       ++ [Send {| rid := Caller 2; url := "/roles/"; _retry := false;
                   Authorization := Some "Bearer t" |};
           Send {| rid := Caller 3; url := "/profile/"; _retry := false;
                   Authorization := Some "Bearer t" |}]
       ++ [Send {| rid := Caller 1; url := "/users/"; _retry := true;
                   Authorization := Some "Bearer t" |}] /\
   Forall (fun a => exists x, a = Send x /\ Authorization x = Some "Bearer t")
          (skipn (List.length (trace st1)) (trace st2)) /\
   issued st2 = issued st1 /\
   idle st2) /\
  (forall evs : list Event, in_flight (run true init evs) <= 1).
Proof.
  apply (concurrent_401_single_refresh true init request_a
           [request_b; request_c] (token_answer "t")).
  - unfold idle. simpl. repeat split.
  - reflexivity.
  - repeat constructor.
Defined.

(** ** The refresh call fails *)

(** The catch block: a refresh call that rejects with anything but a 401
    lowers the flag, redirects (in a browser) and rejects the promise of
    the request that started it.  The subscriber queue is not touched. *)
Lemma refresh_rejected_resumes_catch
    (window : bool) (st : State) (k n : nat) (orig : Config) (e : AxiosError) :
  awaiting st = [(k, orig)] ->
  rid orig = Caller n ->
  is_401 e = false ->
  step window st (Response (refreshRequest k) (Rejected e)) =
  mkState false (refreshSubscribers st) [] (issued st)
          (trace st ++ (if window then [Redirect "/login"] else [])
                    ++ [Fail (Caller n) e]).
Proof.
  intros Haw Hrid H401. unfold step, onRejected. rewrite H401, Haw.
  cbn [andb List.length reject rid refreshRequest].
  rewrite Haw, take_here. unfold refresh_failed.
  destruct window; simpl; rewrite Hrid; unfold emit; simpl;
    [rewrite <- app_assoc |]; reflexivity.
Qed.

(** A refresh call that is answered 401 runs through the same
    interceptor: with the flag up it is queued behind the other waiters,
    and the handler that awaits it is not resumed. *)
Lemma refresh_401_is_queued (window : bool) (st : State) (k : nat) :
  isRefreshing st = true ->
  step window st (unauthorized (refreshRequest k)) =
  subscribeTokenRefresh (refreshRequest k) st.
Proof.
  intros Hflag. unfold step, unauthorized, onRejected.
  simpl. now rewrite Hflag.
Qed.

(** ** Second 401 on the same request *)

(** The request that started a refresh is marked, and a 401 on a marked
    request is handed to the caller as a failure. *)
Lemma marked_request_passes_through
    (window : bool) (st : State) (c : Config) (n : nat) (e : AxiosError) :
  _retry c = true ->
  rid c = Caller n ->
  step window st (Response c (Rejected e)) = emit (Fail (Caller n) e) st.
Proof.
  intros Hretry Hrid. unfold step, onRejected.
  rewrite Hretry, andb_false_r, Hrid.
  destruct (List.length (awaiting st)); reflexivity.
Qed.

(** A queued request is sent again unmarked, so each further cycle in
    which it is answered 401 sends it once more. *)
Lemma run_round (window : bool) (k : nat) (tr : list Action) :
  run window (mkState false [] [] k tr) (round k) =
  mkState false [] [] (S k)
          (tr ++ [ Send (refreshRequest k);
                   Send (bearer "t" request_b);
                   Send (bearer "t"
                           (mark_retry (mkConfig (Caller (10 + k)) "/users/" false None))) ]).
Proof.
  unfold round, run, refreshed, unauthorized.
  cbn [fold_left step].
  unfold onRejected at 2. cbn [is_401 status Nat.eqb _retry negb andb isRefreshing].
  unfold start_refresh, api, emit.
  cbn [isRefreshing refreshSubscribers awaiting issued trace app].
  unfold onRejected.
  cbn [is_401 status Nat.eqb _retry bearer request_b negb andb isRefreshing].
  unfold subscribeTokenRefresh, set_refreshSubscribers.
  cbn [isRefreshing refreshSubscribers awaiting issued trace app].
  unfold onFulfilled, fulfil. cbn [rid refreshRequest awaiting].
  rewrite take_here, refresh_succeeded_spec.
  cbn [isRefreshing refreshSubscribers awaiting issued trace set_awaiting].
  cbn [map app access token_answer]. rewrite <- app_assoc. reflexivity.
Qed.

Lemma rounds_resend (window : bool) (n : nat) :
  idle (run window init (rounds n)) /\
  issued (run window init (rounds n)) = n /\
  resends (Caller 2) (run window init (rounds n)) = n.
Proof.
  induction n as [| m IH].
  - unfold idle. simpl. repeat split.
  - cbn [rounds]. rewrite run_app.
    destruct (run window init (rounds m)) as [flag subs aw k tr].
    unfold idle, resends in IH. cbn [isRefreshing refreshSubscribers awaiting issued trace] in IH.
    destruct IH as [[Hflag [Hsubs Haw]] [Hk Hres]].
    rewrite Hflag, Hsubs, Haw, Hk, run_round.
    unfold idle, resends.
    cbn [isRefreshing refreshSubscribers awaiting issued trace].
    repeat split.
    rewrite filter_app, length_app, Hres. simpl. lia.
Qed.

(** C2: the refresh call started by one request fails with status 500
    while a second request waits in the queue.  The flag is lowered, the
    browser is redirected to the login screen and the promise of the first
    request is rejected, but the queue still holds the second request; its
    subscriber is run by the next successful refresh. *)
Theorem refresh_failure_keeps_waiters :
  let st := run true init
              [ unauthorized request_a; unauthorized request_b;
                Response (refreshRequest 0) (Rejected server_error) ] in
  isRefreshing st = false /\
  trace st = [ Send (refreshRequest 0); Redirect "/login";
               Fail (Caller 1) server_error ] /\
  refreshSubscribers st = [request_b] /\
  trace (run true st [unauthorized request_c; refreshed 1 "t"]) =
    trace st ++ [ Send (refreshRequest 1);
                  Send (bearer "t" request_b);
                  Send (bearer "t" (mark_retry request_c)) ].
Proof. cbv zeta. repeat split. Qed.

(** C3: a request that waited in the queue is sent again without the
    retry mark.  A second 401 on it starts a second refresh and the
    request is sent a second time, where the request that started the
    first refresh gets its second 401 as a failure. *)
Theorem queued_request_retried_twice :
  let st := run true init
              [ unauthorized request_a; unauthorized request_b;
                refreshed 0 "t";
                unauthorized (bearer "t" request_b);
                refreshed 1 "u" ] in
  issued st = 2 /\
  resends (Caller 2) st = 2 /\
  trace st = [ Send (refreshRequest 0);
               Send (bearer "t" request_b);
               Send (bearer "t" (mark_retry request_a));
               Send (refreshRequest 1);
               Send (bearer "u" (mark_retry request_b)) ] /\
  trace (step true st (unauthorized (bearer "t" (mark_retry request_a)))) =
    trace st ++ [Fail (Caller 1) (mkError (Some 401))].
Proof. cbv zeta. repeat split. Qed.

End ApiSpec.

(* ===================================================================== *)
(** * Further properties of the permission hooks *)
(* ===================================================================== *)

Module PermissionsExtra.
Import Permissions.

Lemma Role_eqb_eq (a b : Role) : Role_eqb a b = true <-> a = b.
Proof. destruct a, b; simpl; split; intros H; try reflexivity; discriminate. Qed.

Lemma includes_role_In (l : list Role) (x : Role) :
  includes_role l x = true <-> In x l.
Proof.
  unfold includes_role. rewrite existsb_exists. split.
  - intros [y [Hy Heq]]. apply Role_eqb_eq in Heq. now subst.
  - intros H. exists x. split; [assumption | now apply Role_eqb_eq].
Qed.

Lemma includes_string_In (l : list string) (x : string) :
  includes l x = true <-> In x l.
Proof.
  unfold includes. rewrite existsb_exists. split.
  - intros [y [Hy Heq]]. apply String.eqb_eq in Heq. now subst.
  - intros H. exists x. split; [assumption | apply String.eqb_refl].
Qed.

(** X1: [useHasRole(...roles)] is true exactly when the session is
    authenticated, holds a user, and the role of that user is one of
    [roles]. *)
Theorem useHasRole_true_iff (ctx : AuthProvider.AuthState) (roles : list Role) :
  useHasRole ctx roles = true <->
  exists u : User,
    AuthProvider.isAuthenticated ctx = true /\
    AuthProvider.user ctx = Some u /\
    In (role u) roles.
Proof.
  unfold useHasRole. split.
  - destruct (AuthProvider.isAuthenticated ctx); [| discriminate].
    destruct (AuthProvider.user ctx) as [u |]; [| discriminate].
    intros H. exists u. repeat split. now apply includes_role_In.
  - intros [u [Hauth [Huser Hin]]]. rewrite Hauth, Huser.
    now apply includes_role_In.
Qed.

Lemma has_permission_spec
    (ctx : AuthProvider.AuthState) (permissions : list string) :
  useHasPermission ctx permissions = true <->
  exists (u : User) (p : string),
    AuthProvider.isAuthenticated ctx = true /\
    AuthProvider.user ctx = Some u /\
    In p permissions /\
    In p (ROLE_PERMISSIONS (role u)).
Proof.
  unfold useHasPermission. split.
  - destruct (AuthProvider.isAuthenticated ctx); [| discriminate].
    destruct (AuthProvider.user ctx) as [u |]; [| discriminate].
    intros H. apply existsb_exists in H. destruct H as [p [Hin Hp]].
    exists u, p. repeat split; [assumption |]. now apply includes_string_In.
  - intros [u [p [Hauth [Huser [Hin Hp]]]]]. rewrite Hauth, Huser.
    apply existsb_exists. exists p. split; [assumption |].
    now apply includes_string_In.
Qed.

(** X2: [useHasPermission(...permissions)] is true exactly when the session
    is authenticated, holds a user, and one of [permissions] is in the
    table row of that user's role. *)
Theorem useHasPermission_true_iff
    (ctx : AuthProvider.AuthState) (permissions : list string) :
  useHasPermission ctx permissions = true <->
  exists (u : User) (p : string),
    AuthProvider.isAuthenticated ctx = true /\
    AuthProvider.user ctx = Some u /\
    In p permissions /\
    In p (ROLE_PERMISSIONS (role u)).
Proof. apply has_permission_spec. Qed.

(** X3: the role hooks agree with the table.  [useIsManager] is the check
    for the permission 'manage_users', [useIsAdmin] the check for
    'manage_roles', and whoever passes [useIsAdmin] passes [useIsManager]. *)
Theorem role_hooks_match_table (ctx : AuthProvider.AuthState) :
  useIsManager ctx = useHasPermission ctx ["manage_users"] /\
  useIsAdmin ctx = useHasPermission ctx ["manage_roles"] /\
  (useIsAdmin ctx = true -> useIsManager ctx = true).
Proof.
  unfold useIsManager, useIsAdmin, useHasRole, useHasPermission.
  destruct (AuthProvider.isAuthenticated ctx);
    [| repeat split; discriminate].
  destruct (AuthProvider.user ctx) as [u |];
    [| repeat split; discriminate].
  destruct (role u); simpl; repeat split; discriminate.
Qed.

(** X4: both hooks only depend on which candidates are asked for: a check
    on a concatenation is the disjunction of the checks on its parts, and
    a check with no candidate at all is false. *)
Theorem hooks_distribute_over_candidates
    (ctx : AuthProvider.AuthState)
    (roles1 roles2 : list Role) (perms1 perms2 : list string) :
  useHasRole ctx (roles1 ++ roles2) = useHasRole ctx roles1 || useHasRole ctx roles2 /\
  useHasPermission ctx (perms1 ++ perms2) =
    useHasPermission ctx perms1 || useHasPermission ctx perms2 /\
  useHasRole ctx [] = false /\
  useHasPermission ctx [] = false.
Proof.
  unfold useHasRole, useHasPermission, includes_role.
  destruct (AuthProvider.isAuthenticated ctx); [| repeat split].
  destruct (AuthProvider.user ctx) as [u |]; [| repeat split].
  repeat split.
  - induction roles1 as [| r rest IH]; simpl; [reflexivity |].
    rewrite IH. now rewrite orb_assoc.
  - apply existsb_app.
Qed.

(** X5: a permission that the admin row does not list is granted to
    nobody: a check on candidates outside the admin row is false for every
    session. *)
Theorem permission_outside_admin_row_denied
    (ctx : AuthProvider.AuthState) (permissions : list string)
    (Hout : forall p, In p permissions -> ~ In p (ROLE_PERMISSIONS admin)) :
  useHasPermission ctx permissions = false.
Proof.
  destruct (useHasPermission ctx permissions) eqn:E; [| reflexivity].
  apply has_permission_spec in E.
  destruct E as [u [p [_ [_ [Hin Hp]]]]].
  exfalso. apply (Hout p Hin).
  destruct (role u); simpl in *; intuition.
Qed.

Lemma permission_outside_admin_row_denied_witness :
  useHasPermission
    (AuthProvider.authenticated
       (Some (mkUser "1" "root@example.org" "root" "" "" admin true true "" "")))
    ["delete_database"; "view_logs"] = false.
Proof.
  apply permission_outside_admin_row_denied.
  intros p Hin Hrow. simpl in Hin, Hrow.
  destruct Hin as [Hp | [Hp | []]]; subst p;
    repeat (destruct Hrow as [Hrow | Hrow]; [discriminate |]); exact Hrow.
Defined.

End PermissionsExtra.

(* ===================================================================== *)
(** * Further properties of the session state store *)
(* ===================================================================== *)

Module AuthProviderExtra.
Import AuthProvider.

Ltac unfold_async :=
  unfold perform, refreshToken, fetchCurrentUser, login, register, logout,
    detached, try_catch, bind, api_get, api_post, await_api, setState,
    router_push, ret, state_of, outcome_of, effects_of.

(** The three shapes a state of the store can have. *)
Lemma perform_shapes (o : Op) (be : Backend) (st : AuthState) :
  state_of (perform o be st) = st \/
  state_of (perform o be st) = unauthenticated \/
  exists u, state_of (perform o be st) = authenticated u.
Proof.
  destruct o as [| em pw | data | |]; unfold_async.
  - destruct (be (mkRequest GET "/auth/me/" NoBody)); simpl; eauto.
  - destruct (be (mkRequest POST "/auth/login/" (Credentials em pw))); simpl; eauto.
    destruct (success d); simpl; eauto.
  - destruct (be (mkRequest POST "/auth/register/" (Registration data))); simpl; eauto.
    destruct (success d); simpl; eauto.
  - destruct (be (mkRequest POST "/auth/logout/" NoBody)); simpl; eauto.
  - destruct (be (mkRequest POST "/auth/token/refresh/" NoBody)); simpl; eauto.
    destruct (be (mkRequest POST "/auth/logout/" NoBody)); simpl; eauto.
Qed.

Lemma session_shapes (ops : list (Op * Backend)) :
  forall st,
    (st = initialState \/ st = unauthenticated \/ exists u, st = authenticated u) ->
    session ops st = initialState \/
    session ops st = unauthenticated \/
    exists u, session ops st = authenticated u.
Proof.
  induction ops as [| [o be] rest IH]; intros st Hst; simpl.
  - exact Hst.
  - apply IH.
    destruct (perform_shapes o be st) as [Hsame | [Hun | [u Hau]]].
    + rewrite Hsame. exact Hst.
    + right. left. exact Hun.
    + right. right. exists u. exact Hau.
Qed.

(** X6: [register] has the contract of [login].  With the success signal
    the store becomes authenticated with the user of the answer and the
    router goes to the dashboard; a resolved answer without the signal
    changes nothing and throws nothing; a rejected call throws its error
    and leaves the state as it was. *)
Theorem register_contract (data : RegisterData) (be : Backend) (st : AuthState) :
  register data be st =
    match be (mkRequest POST "/auth/register/" (Registration data)) with
    | Resolved d =>
        if success d then
          (Return tt,
           {| user := data_user d; isAuthenticated := true; isLoading := false |},
           [Call (mkRequest POST "/auth/register/" (Registration data));
            Push "/dashboard"])
        else
          (Return tt, st,
           [Call (mkRequest POST "/auth/register/" (Registration data))])
    | Rejected e =>
        (Throw e, st,
         [Call (mkRequest POST "/auth/register/" (Registration data))])
    end.
Proof.
  unfold_async.
  destruct (be (mkRequest POST "/auth/register/" (Registration data))) as [d | e];
    [destruct (success d) |]; reflexivity.
Qed.

(** X7: a login call that resolves without the success signal is a silent
    no-op: [login] returns normally, the state is the one before the
    call, and the router is not used. *)
Theorem login_without_success_signal
    (email password : string) (be : Backend) (st : AuthState) (d : ResponseData)
    (Hanswer : be (mkRequest POST "/auth/login/" (Credentials email password))
               = Resolved d)
    (Hsignal : success d = false) :
  login email password be st =
    (Return tt, st,
     [Call (mkRequest POST "/auth/login/" (Credentials email password))]).
Proof. unfold_async. rewrite Hanswer, Hsignal. reflexivity. Qed.

Lemma login_without_success_signal_witness :
  login "a@b.com" "wrong" (fun _ => Resolved (mkData false None "")) initialState =
    (Return tt, initialState,
     [Call (mkRequest POST "/auth/login/" (Credentials "a@b.com" "wrong"))]).
Proof.
  apply (login_without_success_signal "a@b.com" "wrong"
           (fun _ => Resolved (mkData false None "")) initialState
           (mkData false None "")); reflexivity.
Defined.

(** X8: [refreshToken] never throws.  When the refresh call resolves, the
    state is untouched and nothing else is called; when it rejects, the
    store logs out: the logout endpoint is called, the state is reset and
    the router goes to the login screen, whatever the logout call
    answers. *)
Theorem refreshToken_contract (be : Backend) (st : AuthState) :
  refreshToken be st =
    match be (mkRequest POST "/auth/token/refresh/" NoBody) with
    | Resolved _ =>
        (Return tt, st, [Call (mkRequest POST "/auth/token/refresh/" NoBody)])
    | Rejected _ =>
        (Return tt,
         {| user := None; isAuthenticated := false; isLoading := false |},
         [Call (mkRequest POST "/auth/token/refresh/" NoBody);
          Call (mkRequest POST "/auth/logout/" NoBody);
          Push "/login"])
    end.
Proof.
  unfold_async.
  destruct (be (mkRequest POST "/auth/token/refresh/" NoBody)); [reflexivity |].
  destruct (be (mkRequest POST "/auth/logout/" NoBody)); reflexivity.
Qed.

(** X9: whatever the backend answers, a state of the store reached from
    the initial one is the initial state, the reset state, or an
    authenticated state; so a user is only ever held together with
    [isAuthenticated = true], and [isLoading] is true only in the initial
    state. *)
Theorem store_states_have_three_shapes (ops : list (Op * Backend)) :
  (session ops initialState =
     {| user := None; isAuthenticated := false; isLoading := true |} \/
   session ops initialState =
     {| user := None; isAuthenticated := false; isLoading := false |} \/
   exists u, session ops initialState =
     {| user := u; isAuthenticated := true; isLoading := false |}) /\
  (user (session ops initialState) = None \/
   isAuthenticated (session ops initialState) = true) /\
  (isLoading (session ops initialState) = false \/
   session ops initialState = initialState).
Proof.
  assert (H : session ops initialState = initialState \/
              session ops initialState = unauthenticated \/
              exists u, session ops initialState = authenticated u)
    by (apply session_shapes; left; reflexivity).
  split; [exact H |].
  destruct H as [H | [H | [u H]]]; rewrite H; simpl; auto.
Qed.

(** X10: no operation raises [isLoading] again: once it is false it stays
    false, also while a login or a registration is in flight. *)
Theorem loading_never_raised
    (o : Op) (be : Backend) (st : AuthState)
    (Hloaded : isLoading st = false) :
  isLoading (state_of (perform o be st)) = false.
Proof.
  destruct (perform_shapes o be st) as [H | [H | [u H]]]; rewrite H;
    [exact Hloaded | reflexivity | reflexivity].
Qed.

Lemma loading_never_raised_witness :
  isLoading (state_of (perform (Login "a@b.com" "x") refusing unauthenticated)) = false.
Proof.
  apply (loading_never_raised (Login "a@b.com" "x") refusing unauthenticated).
  reflexivity.
Defined.

(** X11: the store navigates in step with its state.  An operation pushes
    at most the routes '/dashboard' and '/login'; it pushes '/dashboard'
    only when it leaves the store authenticated and '/login' only when it
    leaves the store in the reset state. *)
Theorem navigation_follows_state (o : Op) (be : Backend) (st : AuthState) :
  (forall p, In (Push p) (effects_of (perform o be st)) ->
             p = "/dashboard" \/ p = "/login") /\
  (In (Push "/dashboard") (effects_of (perform o be st)) ->
   isAuthenticated (state_of (perform o be st)) = true) /\
  (In (Push "/login") (effects_of (perform o be st)) ->
   state_of (perform o be st) =
     {| user := None; isAuthenticated := false; isLoading := false |}).
Proof.
  destruct o as [| em pw | data | |]; unfold_async.
  - destruct (be (mkRequest GET "/auth/me/" NoBody)); simpl;
      repeat split; intros; intuition; discriminate.
  - destruct (be (mkRequest POST "/auth/login/" (Credentials em pw))) as [d | e];
      [destruct (success d) |]; simpl;
      repeat split; intros; intuition; try discriminate;
      match goal with H : Push _ = Push _ |- _ => inversion H; auto end.
  - destruct (be (mkRequest POST "/auth/register/" (Registration data))) as [d | e];
      [destruct (success d) |]; simpl;
      repeat split; intros; intuition; try discriminate;
      match goal with H : Push _ = Push _ |- _ => inversion H; auto end.
  - destruct (be (mkRequest POST "/auth/logout/" NoBody)); simpl;
      repeat split; intros; intuition; try discriminate;
      match goal with H : Push _ = Push _ |- _ => inversion H; auto end.
  - destruct (be (mkRequest POST "/auth/token/refresh/" NoBody)); simpl;
      [repeat split; intros; intuition; discriminate |].
    destruct (be (mkRequest POST "/auth/logout/" NoBody)); simpl;
      repeat split; intros; intuition; try discriminate;
      match goal with H : Push _ = Push _ |- _ => inversion H; auto end.
Qed.

End AuthProviderExtra.

(* ===================================================================== *)
(** * Properties of the role-gated views *)
(* ===================================================================== *)

Module ViewsSpec.
Import Views.

Lemma append_assoc (a b c : string) :
  ((a ++ b) ++ c = a ++ (b ++ c))%string.
Proof. induction a as [| ch a IH]; simpl; [reflexivity | now rewrite IH]. Qed.

Lemma or_else_nonempty (a b : string) : b <> "" -> or_else a b <> "".
Proof.
  intros Hb. unfold or_else. destruct (String.eqb a "") eqn:E; [exact Hb |].
  now apply String.eqb_neq.
Qed.

(** X12: [withRole] renders the wrapped component exactly when loading is
    over and [useHasRole(...allowedRoles)] holds, and it sets the location
    to '/login' exactly when loading is over, the session is not
    authenticated and there is a window; so never while loading. *)
Theorem withRole_gate
    (window : bool) (allowedRoles : list Role) (ctx : AuthProvider.AuthState) :
  (fst (withRole window allowedRoles ctx) = WrappedComponent <->
   AuthProvider.isLoading ctx = false /\
   Permissions.useHasRole ctx allowedRoles = true) /\
  snd (withRole window allowedRoles ctx) =
    (if window && negb (AuthProvider.isLoading ctx)
        && negb (AuthProvider.isAuthenticated ctx)
     then [SetLocation "/login"] else []).
Proof.
  unfold withRole, Permissions.useHasRole, includes_optional_role.
  destruct (AuthProvider.isLoading ctx), (AuthProvider.isAuthenticated ctx),
    window; simpl;
    try (split; [split; [discriminate | intros [H1 H2]; discriminate] | reflexivity]).
  - destruct (AuthProvider.user ctx) as [u |]; simpl.
    + destruct (Permissions.includes_role allowedRoles (role u)); simpl;
        (split; [split; [auto; discriminate | intros [_ H]; auto; discriminate]
                | reflexivity]).
    + split; [split; [discriminate | intros [_ H]; discriminate] | reflexivity].
  - destruct (AuthProvider.user ctx) as [u |]; simpl.
    + destruct (Permissions.includes_role allowedRoles (role u)); simpl;
        (split; [split; [auto; discriminate | intros [_ H]; auto; discriminate]
                | reflexivity]).
    + split; [split; [discriminate | intros [_ H]; discriminate] | reflexivity].
Qed.

(** X13: the cards of the dashboard follow the role of the user and the
    authentication flag: User Management is shown to an authenticated
    manager or admin, the Admin Panel to an authenticated admin only, so
    whoever sees the Admin Panel sees User Management. *)
Theorem dashboard_cards_follow_role
    (env : option string) (ctx : AuthProvider.AuthState) (d : Dashboard)
    (Hpage : fst (DashboardPage env ctx) = PageDashboard d) :
  exists u : User,
    AuthProvider.user ctx = Some u /\
    user_management d =
      AuthProvider.isAuthenticated ctx && negb (Role_eqb (role u) user) /\
    admin_panel d =
      AuthProvider.isAuthenticated ctx && Role_eqb (role u) admin /\
    (admin_panel d = true -> user_management d = true).
Proof.
  unfold DashboardPage, Permissions.useIsAdmin, Permissions.useIsManager,
    Permissions.useHasRole in Hpage. simpl in Hpage.
  destruct (AuthProvider.isLoading ctx); [discriminate |].
  destruct (AuthProvider.user ctx) as [u |]; [| discriminate].
  inversion Hpage; subst d; clear Hpage. exists u. simpl.
  destruct (AuthProvider.isAuthenticated ctx), (role u); simpl;
    repeat split; auto.
Qed.

Lemma dashboard_cards_follow_role_witness :
  exists u : User,
    AuthProvider.user (AuthProvider.authenticated (Some AuthProvider.sample_user))
      = Some u /\
    true = true && negb (Role_eqb (role u) user) /\
    false = true && Role_eqb (role u) admin /\
    (false = true -> true = true).
Proof.
  apply (dashboard_cards_follow_role None
           (AuthProvider.authenticated (Some AuthProvider.sample_user))
           (mkDashboard "a@b.com (manager)" "A" "manager" true false
                        "http://localhost:8000/api/docs/")).
  reflexivity.
Defined.

(** X14: logging in and then opening the dashboard.  When the login
    answer carries the success signal and a user, the page rendered from
    the resulting state is the dashboard of that user, with User
    Management for every role but 'user' and the Admin Panel for 'admin'
    only, and the page does not redirect. *)
Theorem dashboard_after_login
    (env : option string) (email password : string)
    (be : AuthProvider.Backend) (st : AuthProvider.AuthState)
    (d : ResponseData) (u : User)
    (Hanswer : be (AuthProvider.login_request email password) = Resolved d)
    (Hsignal : success d = true)
    (Huser : data_user d = Some u) :
  exists dash : Dashboard,
    DashboardPage env
      (AuthProvider.state_of (AuthProvider.login email password be st))
      = (PageDashboard dash, []) /\
    user_management dash = negb (Role_eqb (role u) user) /\
    admin_panel dash = Role_eqb (role u) admin.
Proof.
  unfold AuthProvider.login_request in Hanswer.
  unfold AuthProvider.login, AuthProvider.bind, AuthProvider.api_post,
    AuthProvider.await_api, AuthProvider.setState, AuthProvider.router_push,
    AuthProvider.state_of.
  rewrite Hanswer, Hsignal. simpl.
  unfold DashboardPage, dashboard_effect, Permissions.useIsAdmin,
    Permissions.useIsManager, Permissions.useHasRole. simpl.
  rewrite Huser. eexists. split; [reflexivity |].
  simpl. destruct (role u); split; reflexivity.
Qed.

Lemma dashboard_after_login_witness :
  exists dash : Dashboard,
    DashboardPage None
      (AuthProvider.state_of
         (AuthProvider.login "a@b.com" "x" AuthProvider.accepting
                             AuthProvider.initialState))
      = (PageDashboard dash, []) /\
    user_management dash = negb (Role_eqb (role AuthProvider.sample_user) user) /\
    admin_panel dash = Role_eqb (role AuthProvider.sample_user) admin.
Proof.
  apply (dashboard_after_login None "a@b.com" "x" AuthProvider.accepting
           AuthProvider.initialState
           (mkData true (Some AuthProvider.sample_user) "token")
           AuthProvider.sample_user); reflexivity.
Defined.

(** X15: after [logout], whatever the backend answered, the dashboard
    renders nothing and pushes '/login', and a [withRole] view renders
    nothing and sets the location to '/login' when there is a window. *)
Theorem views_after_logout
    (env : option string) (window : bool) (allowedRoles : list Role)
    (be : AuthProvider.Backend) (st : AuthProvider.AuthState) :
  DashboardPage env (AuthProvider.state_of (AuthProvider.logout be st))
    = (PageNothing, [RouterPush "/login"]) /\
  withRole window allowedRoles (AuthProvider.state_of (AuthProvider.logout be st))
    = (RenderNothing, if window then [SetLocation "/login"] else []).
Proof.
  unfold AuthProvider.logout, AuthProvider.try_catch, AuthProvider.bind,
    AuthProvider.api_post, AuthProvider.await_api, AuthProvider.setState,
    AuthProvider.router_push, AuthProvider.ret, AuthProvider.state_of.
  destruct (be (AuthProvider.mkRequest AuthProvider.POST "/auth/logout/"
                                       AuthProvider.NoBody));
    simpl; split; reflexivity.
Qed.

(** X16: a login answer with the success signal but without a user leaves
    the store authenticated with no user.  The dashboard then renders
    nothing and does not redirect, and a [withRole] view shows the access
    denied message whatever roles it allows. *)
Theorem views_after_login_without_user
    (env : option string) (window : bool) (allowedRoles : list Role)
    (email password : string)
    (be : AuthProvider.Backend) (st : AuthProvider.AuthState) (d : ResponseData)
    (Hanswer : be (AuthProvider.login_request email password) = Resolved d)
    (Hsignal : success d = true)
    (Huser : data_user d = None) :
  DashboardPage env
    (AuthProvider.state_of (AuthProvider.login email password be st))
    = (PageNothing, []) /\
  withRole window allowedRoles
    (AuthProvider.state_of (AuthProvider.login email password be st))
    = (AccessDenied, []).
Proof.
  unfold AuthProvider.login_request in Hanswer.
  unfold AuthProvider.login, AuthProvider.bind, AuthProvider.api_post,
    AuthProvider.await_api, AuthProvider.setState, AuthProvider.router_push,
    AuthProvider.state_of.
  rewrite Hanswer, Hsignal. simpl.
  unfold DashboardPage, withRole, dashboard_effect. simpl.
  rewrite Huser. split; reflexivity.
Qed.

Lemma views_after_login_without_user_witness :
  DashboardPage None
    (AuthProvider.state_of
       (AuthProvider.login "a@b.com" "x"
          (fun _ => Resolved (mkData true None "")) AuthProvider.initialState))
    = (PageNothing, []) /\
  withRole true [admin; manager; user]
    (AuthProvider.state_of
       (AuthProvider.login "a@b.com" "x"
          (fun _ => Resolved (mkData true None "")) AuthProvider.initialState))
    = (AccessDenied, []).
Proof.
  apply (views_after_login_without_user None true [admin; manager; user]
           "a@b.com" "x" (fun _ => Resolved (mkData true None ""))
           AuthProvider.initialState (mkData true None "")); reflexivity.
Defined.

(** X17: the name in the welcome line is the first non-empty one of first
    name, username and email; it is empty only when all three are. *)
Theorem welcome_name_first_nonempty
    (env : option string) (ctx : AuthProvider.AuthState) (d : Dashboard) (u : User)
    (Hpage : fst (DashboardPage env ctx) = PageDashboard d)
    (Huser : AuthProvider.user ctx = Some u) :
  (first_name u <> "" -> welcome_name d = first_name u) /\
  (first_name u = "" -> username u <> "" -> welcome_name d = username u) /\
  (first_name u = "" -> username u = "" -> welcome_name d = email u) /\
  (email u <> "" -> welcome_name d <> "").
Proof.
  unfold DashboardPage in Hpage. simpl in Hpage. rewrite Huser in Hpage.
  destruct (AuthProvider.isLoading ctx); [discriminate |].
  inversion Hpage; subst d; clear Hpage. simpl.
  repeat split.
  - intros H. unfold or_else at 1. apply String.eqb_neq in H. now rewrite H.
  - intros H1 H2. unfold or_else. rewrite H1. simpl.
    apply String.eqb_neq in H2. now rewrite H2.
  - intros H1 H2. unfold or_else. now rewrite H1, H2.
  - intros H. apply or_else_nonempty. now apply or_else_nonempty.
Qed.

Lemma welcome_name_first_nonempty_witness :
  (first_name AuthProvider.sample_user <> "" -> "A" = first_name AuthProvider.sample_user) /\
  (first_name AuthProvider.sample_user = "" ->
   username AuthProvider.sample_user <> "" -> "A" = username AuthProvider.sample_user) /\
  (first_name AuthProvider.sample_user = "" ->
   username AuthProvider.sample_user = "" -> "A" = email AuthProvider.sample_user) /\
  (email AuthProvider.sample_user <> "" -> "A" <> "").
Proof.
  apply (welcome_name_first_nonempty None
           (AuthProvider.authenticated (Some AuthProvider.sample_user))
           (mkDashboard "a@b.com (manager)" "A" "manager" true false
                        "http://localhost:8000/api/docs/")
           AuthProvider.sample_user); reflexivity.
Defined.

(** X18: the API address is never empty, an empty NEXT_PUBLIC_API_URL
    counting as an unset one, and the documentation link of the dashboard
    lies under the base URL of the axios instance. *)
Theorem docs_link_under_base_url
    (env : option string) (ctx : AuthProvider.AuthState) (d : Dashboard)
    (Hpage : fst (DashboardPage env ctx) = PageDashboard d) :
  API_URL env <> "" /\
  docs_href d = (baseURL env ++ "/docs/")%string.
Proof.
  split.
  - unfold API_URL. destruct env as [v |]; [| discriminate].
    apply or_else_nonempty. discriminate.
  - unfold DashboardPage in Hpage. simpl in Hpage.
    destruct (AuthProvider.isLoading ctx); [discriminate |].
    destruct (AuthProvider.user ctx) as [u |]; [| discriminate].
    inversion Hpage; subst d. simpl. unfold baseURL.
    now rewrite append_assoc.
Qed.

Lemma docs_link_under_base_url_witness :
  API_URL (Some "") <> "" /\
  "http://localhost:8000/api/docs/" = (baseURL (Some "") ++ "/docs/")%string.
Proof.
  apply (docs_link_under_base_url (Some "")
           (AuthProvider.authenticated (Some AuthProvider.sample_user))
           (mkDashboard "a@b.com (manager)" "A" "manager" true false
                        "http://localhost:8000/api/docs/")).
  reflexivity.
Defined.

End ViewsSpec.

(* ===================================================================== *)
(** * Further properties of the HTTP client wrapper *)
(* ===================================================================== *)

Module ApiExtra.
Import Api ApiObservations.

Lemma reject_caller (fuel : nat) (window : bool) (n : nat) (e : AxiosError) (st : State) :
  reject fuel window (Caller n) e st = emit (Fail (Caller n) e) st.
Proof. destruct fuel; reflexivity. Qed.

Lemma step_passes_through (window : bool) (st : State) (ev : Event) :
  passes_through ev = true -> step window st ev = emit (delivered ev) st.
Proof.
  destruct ev as [c [d | e]]; unfold passes_through, step, delivered.
  - unfold onFulfilled, fulfil. destruct (rid c); [reflexivity | discriminate].
  - unfold onRejected. destruct (rid c) eqn:Hrid; [| discriminate].
    intros H. apply negb_true_iff in H. rewrite H. apply reject_caller.
Qed.

(** X19: answers that do not enter the refresh branch are handed to the
    callers one by one and in order: every success and every error other
    than a 401 on an unmarked request (another status, a transport error,
    a 401 on a request already retried).  Such answers leave the flag and
    the queue alone, start no refresh and send nothing. *)
Theorem pass_through_run
    (window : bool) (evs : list Event) (st : State)
    (Hpass : forallb passes_through evs = true) :
  run window st evs =
  mkState (isRefreshing st) (refreshSubscribers st) (awaiting st) (issued st)
          (trace st ++ map delivered evs).
Proof.
  revert st. induction evs as [| ev rest IH]; intros st; simpl.
  - rewrite app_nil_r. now destruct st.
  - simpl in Hpass. apply andb_true_iff in Hpass. destruct Hpass as [Hev Hrest].
    fold (run window (step window st ev) rest).
    rewrite (IH Hrest), (step_passes_through window st ev Hev).
    unfold emit. simpl. now rewrite <- app_assoc.
Qed.

Lemma pass_through_run_witness :
  run true init
      [ Response request_a (Resolved (token_answer ""));
        Response request_b (Rejected server_error);
        Response request_c (Rejected (mkError None));
        Response (mark_retry request_a) (Rejected (mkError (Some 401))) ] =
  mkState false [] [] 0
          [ Fulfil (Caller 1) (token_answer "");
            Fail (Caller 2) server_error;
            Fail (Caller 3) (mkError None);
            Fail (Caller 1) (mkError (Some 401)) ].
Proof.
  apply (pass_through_run true
           [ Response request_a (Resolved (token_answer ""));
             Response request_b (Rejected server_error);
             Response request_c (Rejected (mkError None));
             Response (mark_retry request_a) (Rejected (mkError (Some 401))) ]
           init).
  reflexivity.
Defined.

(** ** Invariants of the module state *)

Lemma step_well_marked (window : bool) (st : State) (ev : Event) :
  coherent st -> well_marked st -> well_marked (step window st ev).
Proof.
  unfold coherent, well_marked.
  intros [Hlen Hdown] [Hflag [Hsubs Haw]].
  destruct ev as [c [d | e]]; unfold step.
  - unfold onFulfilled, fulfil.
    destruct (rid c) as [m | k]; [exact (conj Hflag (conj Hsubs Haw)) |].
    destruct (take k (awaiting st)) as [[orig rest] |] eqn:Htake;
      [| exact (conj Hflag (conj Hsubs Haw))].
    rewrite ApiSpec.refresh_succeeded_spec. simpl.
    pose proof (ApiSpec.take_length _ _ _ _ Htake) as Hl.
    assert (Hrest : rest = []) by (destruct rest; [reflexivity | simpl in Hl; lia]).
    subst rest. repeat split; try constructor; try discriminate.
    intros H. now contradiction H.
  - unfold onRejected.
    destruct (is_401 e && negb (_retry c)) eqn:Hbranch.
    + apply andb_true_iff in Hbranch. destruct Hbranch as [_ Hun].
      apply negb_true_iff in Hun.
      destruct (isRefreshing st) eqn:Eflag.
      * unfold subscribeTokenRefresh. simpl. rewrite Eflag.
        repeat split; try (apply Hflag; reflexivity); try assumption.
        apply Forall_app. split; [assumption | now constructor].
      * unfold start_refresh. simpl. rewrite (Hdown eq_refl). simpl.
        repeat split; try discriminate; try assumption.
        constructor; [reflexivity | constructor].
    + destruct st as [flag subs aw n tr]. simpl in *.
      destruct aw as [| [k' c'] [| p aw']]; simpl in *; try lia.
      * destruct (rid c); simpl; repeat split; try apply Hflag; assumption.
      * destruct (rid c) as [m | k]; simpl;
          [repeat split; try apply Hflag; assumption |].
        destruct (Nat.eqb k k'); simpl;
          [| repeat split; try apply Hflag; assumption].
        unfold refresh_failed. simpl.
        destruct window; simpl; destruct (rid c'); simpl;
          repeat split; try discriminate; try assumption; try constructor;
          intros H; now contradiction H.
Qed.

Lemma run_invariants (window : bool) (evs : list Event) :
  forall st,
    coherent st -> well_marked st ->
    coherent (run window st evs) /\ well_marked (run window st evs).
Proof.
  induction evs as [| ev rest IH]; intros st Hco Hwm; simpl.
  - split; assumption.
  - apply IH.
    + now apply ApiSpec.step_coherent.
    + now apply step_well_marked.
Qed.

Lemma init_well_marked : well_marked init.
Proof.
  unfold well_marked, init. simpl. repeat split; try constructor.
  - discriminate.
  - intros H. now contradiction H.
Qed.

(** X20: in every state the interceptor can reach, [isRefreshing] is true
    exactly while a handler waits for a refresh call, every request in
    the subscriber queue is unmarked, and the request of the waiting
    handler carries the retry mark. *)
Theorem reachable_states_well_marked (window : bool) (evs : list Event) :
  well_marked (run window init evs).
Proof.
  apply (run_invariants window evs init).
  - apply ApiSpec.init_coherent.
  - apply init_well_marked.
Qed.

(** ** What the wrapper sends *)

Lemma sent_ok_mono (n m : nat) (a : Action) :
  n <= m -> sent_ok n a -> sent_ok m a.
Proof.
  intros Hle. destruct a as [c | | |]; simpl; auto.
  intros [[k [Hk Hc]] | H]; [left; exists k; split; [lia | exact Hc] | now right].
Qed.

Lemma sent_ok_emit (a : Action) (st : State) :
  sent_ok (issued st) a ->
  Forall (sent_ok (issued st)) (trace st) ->
  Forall (sent_ok (issued (emit a st))) (trace (emit a st)).
Proof.
  intros Ha Htr. unfold emit. simpl.
  apply Forall_app. split; [exact Htr | now constructor].
Qed.

Lemma sent_ok_bearer (n : nat) (token : string) (c : Config) :
  sent_ok n (Send (bearer token c)).
Proof. simpl. right. exists token. reflexivity. Qed.

Lemma reject_sent_ok (window : bool) (e : AxiosError) (fuel : nat) :
  forall (i : ReqId) (st : State),
    Forall (sent_ok (issued st)) (trace st) ->
    Forall (sent_ok (issued (reject fuel window i e st)))
           (trace (reject fuel window i e st)).
Proof.
  induction fuel as [| fuel' IH]; intros i st Htr.
  - destruct i; simpl; apply sent_ok_emit; simpl; auto.
  - destruct i as [m | k]; cbn [reject]; [apply sent_ok_emit; simpl; auto |].
    destruct (take k (awaiting st)) as [[orig rest] |];
      [| apply sent_ok_emit; simpl; auto].
    apply IH. unfold refresh_failed.
    destruct window; simpl; [| exact Htr].
    apply Forall_app. split; [exact Htr | repeat constructor].
Qed.

Lemma step_sent_ok (window : bool) (st : State) (ev : Event) :
  Forall (sent_ok (issued st)) (trace st) ->
  Forall (sent_ok (issued (step window st ev))) (trace (step window st ev)).
Proof.
  intros Htr. destruct ev as [c [d | e]]; unfold step.
  - unfold onFulfilled, fulfil.
    destruct (rid c) as [m | k]; [apply sent_ok_emit; simpl; auto |].
    destruct (take k (awaiting st)) as [[orig rest] |];
      [| apply sent_ok_emit; simpl; auto].
    rewrite ApiSpec.refresh_succeeded_spec. simpl.
    apply Forall_app. split; [exact Htr |].
    apply Forall_app. split.
    + apply Forall_forall. intros a Ha. apply in_map_iff in Ha.
      destruct Ha as [cb [Ha _]]. subst a. apply sent_ok_bearer.
    + constructor; [apply sent_ok_bearer | constructor].
  - unfold onRejected.
    destruct (is_401 e && negb (_retry c)).
    + destruct (isRefreshing st).
      * unfold subscribeTokenRefresh. simpl. exact Htr.
      * unfold start_refresh, api, emit. simpl.
        apply Forall_app. split.
        -- eapply Forall_impl; [| exact Htr].
           intros a. apply sent_ok_mono. lia.
        -- constructor; [| constructor]. simpl. left.
           exists (issued st). split; [lia | reflexivity].
    + now apply reject_sent_ok.
Qed.

(** X21: every request the interceptor itself hands to axios is either
    one of the refresh calls it has counted or carries an Authorization
    header of the form 'Bearer <token>': no request is re-sent without a
    token. *)
Theorem every_resend_carries_token (window : bool) (evs : list Event) :
  Forall (sent_ok (issued (run window init evs))) (trace (run window init evs)).
Proof.
  assert (H : forall st, Forall (sent_ok (issued st)) (trace st) ->
                         Forall (sent_ok (issued (run window st evs)))
                                (trace (run window st evs))).
  { induction evs as [| ev rest IH]; intros st Hst; simpl; [exact Hst |].
    apply IH. now apply step_sent_ok. }
  apply H. constructor.
Qed.

(** ** The refresh call is answered with an error *)

(** X22: a 401 on the refresh call itself goes through the same branch as
    any other request: while the flag is up it is put in the queue, and so
    is every later 401.  The waiting handler does not resume: the flag
    stays up, nothing is sent, no promise settles and the browser is not
    redirected. *)
Theorem refresh_answered_401_blocks
    (window : bool) (st : State) (k : nat) (cs : list Config)
    (Hflag : isRefreshing st = true)
    (Hcs : Forall (fun x => _retry x = false) cs) :
  run window st (unauthorized (refreshRequest k) :: map unauthorized cs) =
  mkState true (refreshSubscribers st ++ refreshRequest k :: cs)
          (awaiting st) (issued st) (trace st).
Proof.
  change (unauthorized (refreshRequest k) :: map unauthorized cs)
    with (map unauthorized (refreshRequest k :: cs)).
  rewrite ApiSpec.run_queues; [| exact Hflag | now constructor].
  unfold set_refreshSubscribers. now rewrite Hflag.
Qed.

Lemma refresh_answered_401_blocks_witness :
  run true (run true init [unauthorized request_a])
      (unauthorized (refreshRequest 0) :: map unauthorized [request_b]) =
  mkState true [refreshRequest 0; request_b] [(0, mark_retry request_a)] 1
          [Send (refreshRequest 0)].
Proof.
  apply (refresh_answered_401_blocks true (run true init [unauthorized request_a])
           0 [request_b]).
  - reflexivity.
  - repeat constructor.
Defined.

(** X23: the catch block.  When the awaited refresh call fails with
    anything but a 401, the flag is lowered, the location is set to
    '/login' if there is a window, and the promise of the request that
    started the refresh is rejected with the error of the refresh call.
    No request is sent and the subscriber queue is left as it was. *)
Theorem refresh_failure_path
    (window : bool) (st : State) (k n : nat) (orig : Config) (e : AxiosError)
    (Hawait : awaiting st = [(k, orig)])
    (Hcaller : rid orig = Caller n)
    (Herror : is_401 e = false) :
  step window st (Response (refreshRequest k) (Rejected e)) =
  mkState false (refreshSubscribers st) [] (issued st)
          (trace st ++ (if window then [Redirect "/login"] else [])
                    ++ [Fail (Caller n) e]).
Proof.
  apply (ApiSpec.refresh_rejected_resumes_catch window st k n orig e);
    assumption.
Qed.

Lemma refresh_failure_path_witness :
  step false (run false init [unauthorized request_a; unauthorized request_b])
       (Response (refreshRequest 0) (Rejected (mkError None))) =
  mkState false [request_b] [] 1
          [Send (refreshRequest 0); Fail (Caller 1) (mkError None)].
Proof.
  apply (refresh_failure_path false
           (run false init [unauthorized request_a; unauthorized request_b])
           0 1 (mark_retry request_a) (mkError None)); reflexivity.
Defined.

(** ** A cycle that starts with requests already queued *)

(** X24: a refresh cycle that starts while the queue still holds requests
    of an earlier, failed cycle serves them as well: when the refresh
    resolves, the requests left over are sent first, then the requests
    queued in this cycle, then the request that started it, each with its
    Authorization header set to 'Bearer ' followed by the [access] member
    of the refresh answer, and the queue is empty afterwards. *)
Theorem leftover_waiters_served_first
    (window : bool) (st : State) (c : Config) (cs : list Config) (d : ResponseData)
    (Hflag : isRefreshing st = false)
    (Hawait : awaiting st = [])
    (Hc : _retry c = false)
    (Hcs : Forall (fun x => _retry x = false) cs) :
  run window st
      (map unauthorized (c :: cs)
         ++ [Response (refreshRequest (issued st)) (Resolved d)]) =
  mkState false [] [] (S (issued st))
          (trace st
             ++ [Send {| rid := RefreshCall (issued st);
                         url := "/auth/token/refresh/";
                         _retry := false; Authorization := None |}]
             ++ map (fun x =>
                       Send {| rid := rid x; url := url x; _retry := _retry x;
                               Authorization :=
                                 Some ("Bearer " ++ access d)%string |})
                    (refreshSubscribers st ++ cs)
             ++ [Send {| rid := rid c; url := url c; _retry := true;
                         Authorization := Some ("Bearer " ++ access d)%string |}]).
Proof.
  rewrite ApiSpec.run_app.
  assert (Hrun : run window st (map unauthorized (c :: cs)) =
                 mkState true (refreshSubscribers st ++ cs)
                         [(issued st, mark_retry c)] (S (issued st))
                         (trace st ++ [Send (refreshRequest (issued st))])).
  { simpl. unfold onRejected. simpl. rewrite Hc, Hflag. simpl.
    fold (run window (start_refresh c st) (map unauthorized cs)).
    rewrite ApiSpec.run_queues; [| reflexivity | exact Hcs].
    unfold start_refresh, api, emit, set_refreshSubscribers. simpl.
    now rewrite Hawait. }
  rewrite Hrun. unfold run. cbn [fold_left step].
  unfold onFulfilled, fulfil. cbn [rid refreshRequest awaiting].
  rewrite ApiSpec.take_here, ApiSpec.refresh_succeeded_spec. simpl.
  now rewrite <- app_assoc.
Qed.

Lemma leftover_waiters_served_first_witness :
  run true (mkState false [request_b] [] 1
                    [Send (refreshRequest 0); Redirect "/login";
                     Fail (Caller 1) server_error])
      (map unauthorized [request_c]
         ++ [Response (refreshRequest 1) (Resolved (token_answer "t"))]) =
  mkState false [] [] 2
          ([Send (refreshRequest 0); Redirect "/login";
            Fail (Caller 1) server_error]
             ++ [Send {| rid := RefreshCall 1; url := "/auth/token/refresh/";
                         _retry := false; Authorization := None |}]
             ++ [Send {| rid := Caller 2; url := "/roles/"; _retry := false;
                         Authorization := Some "Bearer t" |}]
             ++ [Send {| rid := Caller 3; url := "/profile/"; _retry := true;
                         Authorization := Some "Bearer t" |}]).
Proof.
  apply (leftover_waiters_served_first true
           (mkState false [request_b] [] 1
                    [Send (refreshRequest 0); Redirect "/login";
                     Fail (Caller 1) server_error])
           request_c [] (token_answer "t")).
  - reflexivity.
  - reflexivity.
  - reflexivity.
  - constructor.
Defined.

End ApiExtra.
